(** * Integration-test harness of the-littlest-jupyterhub (.github/integration-test.py)

    Shallow embedding of the container lifecycle controller, the readiness
    probe and the test-run orchestrator.  The host (search path, container
    runtime, wall clock) is an environment of oracles indexed by how many
    probes / commands were issued before; the process state records the
    probes of [shutil.which], the argv of every command handed to
    [subprocess] and the wall clock.  [print] calls only write to stdout
    and are not modelled; [bytes.decode] is taken as total. *)

From Stdlib Require Import String List ZArith Lia Bool.
Import ListNotations.
Open Scope string_scope.
Open Scope list_scope.

(** ** Exceptions and process outcomes *)

Inductive exn :=
| CalledProcessError (returncode : Z) (cmd : list string) (output : option string)
                           (* None when the output was not captured *)
| RuntimeError (msg : string)
| OSError (msg : string)   (* e.g. FileNotFoundError when spawning *)
| OutOfFuel.               (* modelling artifact of the polling loop; never
                              produced, see [check_container_ready_fuel_ok] *)

(** What the operating system does with one spawned argv. *)
Inductive outcome :=
| Exited (code : Z) (out : string)
| SpawnFailed (msg : string).

Inductive res (A : Type) :=
| Ok (a : A)
| Err (e : exn).
Arguments Ok {A} a.
Arguments Err {A} e.

(** ** The host and the process state *)

Record env := {
  which_at : nat -> string -> bool;        (* n-th [which] probe: binary on PATH? *)
  answer   : nat -> list string -> outcome; (* n-th command's outcome *)
  duration : nat -> nat                    (* n-th command's wall-clock time, ms *)
}.

Record state := {
  probes : list string;
  trace  : list (list string);
  clock  : Z                               (* [time.time()], in milliseconds *)
}.

Definition M (A : Type) := env -> state -> res A * state.

Definition ret {A} (a : A) : M A := fun _ s => (Ok a, s).
Definition raise {A} (e : exn) : M A := fun _ s => (Err e, s).
Definition bind {A B} (m : M A) (k : A -> M B) : M B :=
  fun E s => match m E s with
             | (Ok a, s') => k a E s'
             | (Err e, s') => (Err e, s')
             end.

Notation "x <- m ;; k" := (bind m (fun x => k))
  (at level 61, m at next level, right associativity).
Notation "m ;;; k" := (bind m (fun _ => k))
  (at level 61, right associativity).

(** [try: m except subprocess.CalledProcessError as e: h e] *)
Definition catch_cpe {A} (m : M A) (h : exn -> M A) : M A :=
  fun E s => match m E s with
             | (Err (CalledProcessError c cmd o as e), s') => h e E s'
             | r => r
             end.

(** ** Library primitives *)

(** [shutil.which(b)] (truthiness of its result) *)
Definition which (b : string) : M bool :=
  fun E s => (Ok (which_at E (length (probes s)) b),
              {| probes := probes s ++ [b]; trace := trace s; clock := clock s |}).

(** [subprocess.check_output(cmd)]: spawn, wait, capture stdout, raise
    [CalledProcessError] (carrying the output) on a nonzero exit. *)
Definition subprocess_call (cmd : list string) : M string :=
  fun E s =>
    let i := length (trace s) in
    let s' := {| probes := probes s; trace := trace s ++ [cmd];
                 clock := clock s + Z.of_nat (duration E i) |} in
    match answer E i cmd with
    | Exited 0 out => (Ok out, s')
    | Exited c out => (Err (CalledProcessError c cmd (Some out)), s')
    | SpawnFailed m => (Err (OSError m), s')
    end.

(** [subprocess.run(cmd, check=True)]: the same, but stdout is not
    captured, so the [CalledProcessError] has [output=None]. *)
Definition subprocess_run (cmd : list string) : M unit :=
  fun E s =>
    let i := length (trace s) in
    let s' := {| probes := probes s; trace := trace s ++ [cmd];
                 clock := clock s + Z.of_nat (duration E i) |} in
    match answer E i cmd with
    | Exited 0 _ => (Ok tt, s')
    | Exited c _ => (Err (CalledProcessError c cmd None), s')
    | SpawnFailed m => (Err (OSError m), s')
    end.

(** [time.time()] and [time.sleep(d)] *)
Definition time_time : M Z := fun _ s => (Ok (clock s), s).
Definition time_sleep (d : Z) : M unit :=
  fun _ s => (Ok tt, {| probes := probes s; trace := trace s; clock := clock s + d |}).

(** ** container_runtime, container_check_output, container_run *)

Definition runtimes : list string := ["docker"; "podman"].

Fixpoint first_on_path (rs : list string) : M (option string) :=
  match rs with
  | [] => ret None
  | r :: rs' => found <- which r ;; if found then ret (Some r) else first_on_path rs'
  end.

Definition container_runtime : M string :=
  o <- first_on_path runtimes ;;
  match o with
  | Some r => ret r
  | None => raise (RuntimeError ("No container runtime found, tried: "
                                   ++ String.concat " " runtimes)%string)
  end.

Definition container_check_output (args : list string) : M string :=
  rt <- container_runtime ;; subprocess_call (rt :: args).

Definition container_run (args : list string) : M unit :=
  rt <- container_runtime ;; subprocess_run (rt :: args).

(** ** Lifecycle operations *)

Definition build_systemd_image (image_name source_path : string)
           (build_args : option (list string)) : M unit :=
  let cmd := ["build"; ("-t=" ++ image_name)%string; source_path] in
  let cmd := match build_args with
             | Some ((_ :: _) as bas) => cmd ++ map (fun ba => ("--build-arg=" ++ ba)%string) bas
             | _ => cmd
             end in
  container_check_output cmd ;;; ret tt.

Definition poll_interval : Z := 5.

(** a number of seconds on the millisecond clock *)
Definition seconds (x : Z) : Z := 1000 * x.

Fixpoint ready_loop (container_name : string) (timeout now : Z) (fuel : nat) : M unit :=
  match fuel with
  | O => raise OutOfFuel
  | S fuel' =>
    catch_cpe (container_check_output ["exec"; "-t"; container_name; "id"] ;;; ret tt)
      (fun _ =>
         catch_cpe (container_check_output ["inspect"; container_name] ;;; ret tt)
                   (fun _ => ret tt) ;;;
         catch_cpe (container_check_output ["logs"; container_name] ;;; ret tt)
                   (fun _ => ret tt) ;;;
         t <- time_time ;;
         if Z.gtb (t - now) (seconds timeout)
         then raise (RuntimeError ("Container " ++ container_name ++ " hasn't started")%string)
         else time_sleep (seconds poll_interval) ;;; ready_loop container_name timeout now fuel')
  end.

(** Each failed round advances the clock by at least [poll_interval], so
    this many rounds always suffice (see [check_container_ready_fuel_ok]). *)
Definition ready_fuel (timeout : Z) : nat := S (S (Z.to_nat (timeout / poll_interval))).

Definition check_container_ready (container_name : string) (timeout : Z) : M unit :=
  now <- time_time ;; ready_loop container_name timeout now (ready_fuel timeout).

(** Python truthiness of [bootstrap_pip_spec] (a str, or None from argparse) *)
Definition truthy (o : option string) : bool :=
  match o with Some (String _ _) => true | _ => false end.

Definition run_args (image_name container_name : string)
           (bootstrap_pip_spec : option string) : list string :=
  let cmd := ["run"; "--privileged"; "--detach"; ("--name=" ++ container_name)%string;
              "--memory=900m"] in
  let cmd := match bootstrap_pip_spec with
             | Some ((String _ _) as v) => cmd ++ ["-e"; ("TLJH_BOOTSTRAP_PIP_SPEC=" ++ v)%string]
             | _ => cmd
             end in
  cmd ++ [image_name].

Definition run_systemd_image (image_name container_name : string)
           (bootstrap_pip_spec : option string) : M unit :=
  container_check_output (run_args image_name container_name bootstrap_pip_spec) ;;; ret tt.

Definition stop_container (container_name : string) : M unit :=
  exists_ <- catch_cpe (container_check_output ["inspect"; container_name] ;;; ret true)
                       (fun _ => ret false) ;;
  if exists_ then container_check_output ["rm"; "-f"; container_name] ;;; ret tt
  else ret tt.

Definition run_container_command (container_name cmd : string) : M unit :=
  container_run ["exec"; "-t"; container_name; "/bin/bash"; "-c"; cmd].

Definition copy_to_container (container_name src_path dest_path : string) : M unit :=
  container_check_output ["cp"; src_path; (container_name ++ ":" ++ dest_path)%string] ;;; ret tt.

(** [os.path.join(a, b)] for two components (POSIX) *)
Definition os_path_join (a b : string) : string :=
  if String.prefix "/" b then b
  else match a with
       | EmptyString => b
       | _ => if String.eqb (substring (String.length a - 1) 1 a) "/"
              then (a ++ b)%string else (a ++ "/" ++ b)%string
       end.

(** ** The orchestrator *)

(** [source_path] is [os.path.abspath(os.path.join(os.path.dirname(__file__),
    os.pardir))], the checkout's root; it depends only on where the script
    lives, so it is a parameter here. *)
Section RunTest.
Variable source_path : string.

Definition upgrade_command (upgrade_from : string) : string :=
  ("curl -L https://tljh.jupyter.org/bootstrap.py | python3 - --version=" ++ upgrade_from)%string.

Definition installer_command (installer_args : string) : string :=
  ("python3 /srv/src/bootstrap.py " ++ installer_args)%string.

Definition deps_command : string :=
  "/opt/tljh/hub/bin/python3 -m pip install -r /srv/src/integration-tests/requirements.txt".

Definition freeze_command : string := "/opt/tljh/hub/bin/python3 -m pip freeze".

Definition pytest_command (test_files : list string) : string :=
  ("/opt/tljh/hub/bin/python3 -m pytest --verbose --maxfail=2 --color=yes --durations=10 --capture=no "
   ++ String.concat " " (map (os_path_join "/srv/src/integration-tests/") test_files))%string.

Definition run_test (image_name test_name : string) (bootstrap_pip_spec : option string)
           (test_files : list string) (upgrade_from installer_args : string) : M unit :=
  stop_container test_name ;;;
  run_systemd_image image_name test_name bootstrap_pip_spec ;;;
  check_container_ready test_name 60 ;;;
  copy_to_container test_name (os_path_join source_path "bootstrap/.") "/srv/src" ;;;
  copy_to_container test_name (os_path_join source_path "integration-tests/") "/srv/src" ;;;
  container_check_output ["logs"; test_name] ;;;
  (if String.eqb upgrade_from "" then ret tt
   else run_container_command test_name (upgrade_command upgrade_from)) ;;;
  run_container_command test_name (installer_command installer_args) ;;;
  run_container_command test_name deps_command ;;;
  run_container_command test_name freeze_command ;;;
  run_container_command test_name (pytest_command test_files).

(** The ten steps of the spec's TestRunOrchestrator, in its words, and the
    source calls each step stands for. *)
Inductive step := Stop | Run | Wait | Copy | Logs | Upgrade | Install | Deps | Freeze | Suite.

Definition plan (upgrade_from : string) : list step :=
  [Stop; Run; Wait; Copy; Logs]
  ++ (if String.eqb upgrade_from "" then [] else [Upgrade])
  ++ [Install; Deps; Freeze; Suite].

Definition step_action (image_name test_name : string) (bootstrap_pip_spec : option string)
           (test_files : list string) (upgrade_from installer_args : string)
           (st : step) : M unit :=
  match st with
  | Stop => stop_container test_name
  | Run => run_systemd_image image_name test_name bootstrap_pip_spec
  | Wait => check_container_ready test_name 60
  | Copy =>
    copy_to_container test_name (os_path_join source_path "bootstrap/.") "/srv/src" ;;;
    copy_to_container test_name (os_path_join source_path "integration-tests/") "/srv/src"
  | Logs => container_check_output ["logs"; test_name] ;;; ret tt
  | Upgrade => run_container_command test_name (upgrade_command upgrade_from)
  | Install => run_container_command test_name (installer_command installer_args)
  | Deps => run_container_command test_name deps_command
  | Freeze => run_container_command test_name freeze_command
  | Suite => run_container_command test_name (pytest_command test_files)
  end.

End RunTest.

Definition show_logs (container_name : string) : M unit :=
  run_container_command container_name "journalctl --no-pager" ;;;
  run_container_command container_name "systemctl --no-pager status jupyterhub traefik".

(** ** The command line *)

(** An attribute of the argparse [Namespace]: set by the chosen subparser,
    or absent (reading it raises [AttributeError]). *)
Inductive attr (A : Type) := Missing | Present (a : A).
Arguments Missing {A}.
Arguments Present {A} a.

Record namespace := {
  ns_action : option string;                   (* subparsers dest="action" *)
  ns_build_args : attr (option (list string)); (* action="append", default None *)
  ns_container_name : attr string;
  ns_command : attr string;
  ns_src : attr string;
  ns_dest : attr string;
  ns_installer_args : attr string;
  ns_upgrade_from : attr string;
  ns_bootstrap_pip_spec : attr (option string); (* nargs="?": None when given bare *)
  ns_test_name : attr string;
  ns_test_files : attr (list string)            (* nargs="+" *)
}.

Definition empty_namespace (action : option string) : namespace :=
  {| ns_action := action; ns_build_args := Missing; ns_container_name := Missing;
     ns_command := Missing; ns_src := Missing; ns_dest := Missing;
     ns_installer_args := Missing; ns_upgrade_from := Missing;
     ns_bootstrap_pip_spec := Missing; ns_test_name := Missing;
     ns_test_files := Missing |}.

(** What [argparser.parse_args()] can return: one case per subparser of
    [main], carrying the values of the arguments that subparser declares. *)
Inductive parsed :=
| PNoAction
| PBuildImage (build_args : option (list string))
| PStopContainer (container_name : string)
| PStartContainer (container_name : string)
| PRun (container_name command : string)
| PCopy (container_name src dest : string)
| PRunTest (installer_args upgrade_from : string) (bootstrap_pip_spec : option string)
           (test_name : string) (test_files : list string)
| PShowLogs (container_name : string).

Definition namespace_of (p : parsed) : namespace :=
  match p with
  | PNoAction => empty_namespace None
  | PBuildImage ba =>
    {| ns_action := Some "build-image"; ns_build_args := Present ba;
       ns_container_name := Missing; ns_command := Missing; ns_src := Missing;
       ns_dest := Missing; ns_installer_args := Missing; ns_upgrade_from := Missing;
       ns_bootstrap_pip_spec := Missing; ns_test_name := Missing; ns_test_files := Missing |}
  | PStopContainer n =>
    {| ns_action := Some "stop-container"; ns_build_args := Missing;
       ns_container_name := Present n; ns_command := Missing; ns_src := Missing;
       ns_dest := Missing; ns_installer_args := Missing; ns_upgrade_from := Missing;
       ns_bootstrap_pip_spec := Missing; ns_test_name := Missing; ns_test_files := Missing |}
  | PStartContainer n =>
    {| ns_action := Some "start-container"; ns_build_args := Missing;
       ns_container_name := Present n; ns_command := Missing; ns_src := Missing;
       ns_dest := Missing; ns_installer_args := Missing; ns_upgrade_from := Missing;
       ns_bootstrap_pip_spec := Missing; ns_test_name := Missing; ns_test_files := Missing |}
  | PRun n c =>
    {| ns_action := Some "run"; ns_build_args := Missing;
       ns_container_name := Present n; ns_command := Present c; ns_src := Missing;
       ns_dest := Missing; ns_installer_args := Missing; ns_upgrade_from := Missing;
       ns_bootstrap_pip_spec := Missing; ns_test_name := Missing; ns_test_files := Missing |}
  | PCopy n src dest =>
    {| ns_action := Some "copy"; ns_build_args := Missing;
       ns_container_name := Present n; ns_command := Missing; ns_src := Present src;
       ns_dest := Present dest; ns_installer_args := Missing; ns_upgrade_from := Missing;
       ns_bootstrap_pip_spec := Missing; ns_test_name := Missing; ns_test_files := Missing |}
  | PRunTest ia uf bps tn tfs =>
    {| ns_action := Some "run-test"; ns_build_args := Missing;
       ns_container_name := Missing; ns_command := Missing; ns_src := Missing;
       ns_dest := Missing; ns_installer_args := Present ia; ns_upgrade_from := Present uf;
       ns_bootstrap_pip_spec := Present bps; ns_test_name := Present tn;
       ns_test_files := Present tfs |}
  | PShowLogs n =>
    {| ns_action := Some "show-logs"; ns_build_args := Missing;
       ns_container_name := Present n; ns_command := Missing; ns_src := Missing;
       ns_dest := Missing; ns_installer_args := Missing; ns_upgrade_from := Missing;
       ns_bootstrap_pip_spec := Missing; ns_test_name := Missing; ns_test_files := Missing |}
  end.

(** [args.<name>]: the arguments of a call are read before the call, so a
    missing attribute raises [AttributeError] (named by [inl]) before any
    command runs. *)
Definition getattr {A B} (a : attr A) (name : string) (k : A -> string + B) : string + B :=
  match a with
  | Missing => inl name
  | Present v => k v
  end.

Definition main_image_name : string := "tljh-systemd".

(** [main] after [parse_args()]: [inl attr] is the [AttributeError] on
    [args.attr], [inr m] the call it makes. *)
Definition main_dispatch (source_path : string) (args : namespace) : string + M unit :=
  let image_name := main_image_name in
  match ns_action args with
  | Some "run-test" =>
    getattr (ns_test_name args) "test_name" (fun tn =>
    getattr (ns_bootstrap_pip_spec args) "bootstrap_pip_spec" (fun bps =>
    getattr (ns_test_files args) "test_files" (fun tfs =>
    getattr (ns_upgrade_from args) "upgrade_from" (fun uf =>
    getattr (ns_installer_args args) "installer_args" (fun ia =>
    inr (run_test source_path image_name tn bps tfs uf ia))))))
  | Some "show-logs" =>
    getattr (ns_container_name args) "container_name" (fun n => inr (show_logs n))
  | Some "run" =>
    getattr (ns_container_name args) "container_name" (fun n =>
    getattr (ns_command args) "command" (fun c => inr (run_container_command n c)))
  | Some "copy" =>
    getattr (ns_container_name args) "container_name" (fun n =>
    getattr (ns_src args) "src" (fun src =>
    getattr (ns_dest args) "dest" (fun dest => inr (copy_to_container n src dest))))
  | Some "start-container" =>
    getattr (ns_container_name args) "container_name" (fun n =>
    getattr (ns_bootstrap_pip_spec args) "bootstrap_pip_spec" (fun bps =>
    inr (run_systemd_image image_name n bps)))
  | Some "stop-container" =>
    getattr (ns_container_name args) "container_name" (fun n => inr (stop_container n))
  | Some "build-image" =>
    getattr (ns_build_args args) "build_args" (fun ba =>
    inr (build_systemd_image image_name "integration-tests" ba))
  | _ => inr (ret tt)
  end.

(** Sequential composition that stops at the first raised exception. *)
Fixpoint run_seq (l : list (M unit)) : M unit :=
  match l with
  | [] => ret tt
  | a :: l' => a ;;; run_seq l'
  end.

(** Runtime subcommands that tear a container down. *)
Definition is_teardown (c : list string) : bool :=
  match c with
  | _ :: sub :: _ => String.eqb sub "rm" || String.eqb sub "stop" || String.eqb sub "kill"
  | _ => false
  end.

(** The liveness command of the probe, whatever runtime issued it. *)
Definition is_liveness (name : string) (c : list string) : bool :=
  match c with
  | [_; "exec"; "-t"; n; "id"] => String.eqb n name
  | _ => false
  end.

Definition count_liveness (name : string) (t : list (list string)) : nat :=
  length (filter (is_liveness name) t).

(** ** Concrete hosts *)

Definition mk_state : state := {| probes := []; trace := []; clock := 0 |}.

(** docker on PATH, every command exits with [code] and takes no time *)
Definition host_all (code : Z) : env :=
  {| which_at := fun _ b => String.eqb b "docker";
     answer := fun _ _ => Exited code "";
     duration := fun _ => O |}.

(** ** Monad laws, pointwise *)

Lemma bind_ext {A B} (m : M A) (k1 k2 : A -> M B) E s :
  (forall a E' s', k1 a E' s' = k2 a E' s') -> bind m k1 E s = bind m k2 E s.
Proof. intros H. unfold bind. destruct (m E s) as [[a|e] s']; auto. Qed.

Lemma bind_assoc {A B C} (m : M A) (f : A -> M B) (g : B -> M C) E s :
  bind (bind m f) g E s = bind m (fun a => bind (f a) g) E s.
Proof. unfold bind. destruct (m E s) as [[a|e] s']; reflexivity. Qed.

Lemma bind_ret_l {A B} (a : A) (k : A -> M B) E s : bind (ret a) k E s = k a E s.
Proof. reflexivity. Qed.

Lemma bind_ret_unit (m : M unit) E s : bind m (fun _ => ret tt) E s = m E s.
Proof. unfold bind. destruct (m E s) as [[[]|e] s']; reflexivity. Qed.

Lemma run_seq_app_ok pre post E s s1 :
  run_seq pre E s = (Ok tt, s1) -> run_seq (pre ++ post) E s = run_seq post E s1.
Proof.
  revert s. induction pre as [|a pre IH]; intros s H; cbn in *.
  - unfold ret in H. congruence.
  - unfold bind in *. destruct (a E s) as [[[]|e] s']; [|discriminate]. auto.
Qed.

Lemma run_seq_err pre post E s e s1 :
  run_seq pre E s = (Err e, s1) -> run_seq (pre ++ post) E s = (Err e, s1).
Proof.
  revert s. induction pre as [|a pre IH]; intros s H; cbn in *.
  - discriminate.
  - unfold bind in *. destruct (a E s) as [[[]|e'] s']; auto.
Qed.

Ltac step_ext := apply bind_ext; intros.

(** [run_test] is the ten-step plan, each step being its source calls. *)
Lemma run_test_is_plan sp img tn bps tf uf ia E s :
  run_test sp img tn bps tf uf ia E s
  = run_seq (map (step_action sp img tn bps tf uf ia) (plan uf)) E s.
Proof.
  unfold run_test, plan. destruct (String.eqb uf "") eqn:Hu;
    cbn [app map run_seq step_action]; rewrite ?Hu.
  - do 3 step_ext. rewrite bind_assoc. do 2 step_ext.
    rewrite bind_assoc. step_ext. rewrite bind_ret_l, bind_ret_l.
    do 3 step_ext. symmetry. apply bind_ret_unit.
  - do 3 step_ext. rewrite bind_assoc. do 2 step_ext.
    rewrite bind_assoc. step_ext. rewrite bind_ret_l.
    do 4 step_ext. symmetry. apply bind_ret_unit.
Qed.

Lemma run_seq_map_abort (act : step -> M unit) pre st post E s s1 e s2 :
  run_seq (map act pre) E s = (Ok tt, s1) ->
  act st E s1 = (Err e, s2) ->
  run_seq (map act (pre ++ st :: post)) E s = (Err e, s2).
Proof.
  intros H1 H2. rewrite map_app. erewrite run_seq_app_ok by eassumption.
  cbn. unfold bind. rewrite H2. reflexivity.
Qed.

(** ** C1: the orchestrator's step order *)

(** C1: [run_test] is exactly the sequence stop, run, readiness wait, copy
    fixtures, emit logs, (upgrade exec), installer exec, dependency exec,
    freeze exec, suite exec; the upgrade step is in the sequence iff
    [upgrade_from] is non-empty; every step occurs once (no retry); and as
    soon as a step raises, [run_test] ends with that exception in the state
    the step left, so no later step issues anything. *)
Theorem run_test_step_order sp img tn bps tf uf ia :
  (forall E s, run_test sp img tn bps tf uf ia E s
               = run_seq (map (step_action sp img tn bps tf uf ia) (plan uf)) E s)
  /\ (In Upgrade (plan uf) <-> uf <> "")
  /\ NoDup (plan uf)
  /\ (forall pre st post E s s1 e s2,
        plan uf = pre ++ st :: post ->
        run_seq (map (step_action sp img tn bps tf uf ia) pre) E s = (Ok tt, s1) ->
        step_action sp img tn bps tf uf ia st E s1 = (Err e, s2) ->
        run_test sp img tn bps tf uf ia E s = (Err e, s2)).
Proof.
  split; [|split; [|split]].
  - intros. apply run_test_is_plan.
  - unfold plan. destruct (String.eqb uf "") eqn:Hu.
    + apply String.eqb_eq in Hu. subst. cbn. split; [intros H; intuition discriminate | congruence].
    + apply String.eqb_neq in Hu. cbn. split; [auto | intros _; tauto].
  - unfold plan. destruct (String.eqb uf ""); cbn;
      repeat constructor; cbn; intuition discriminate.
  - intros pre st post E s s1 e s2 Hp H1 H2.
    rewrite run_test_is_plan, Hp. eapply run_seq_map_abort; eassumption.
Qed.

(** ** Shape of single commands *)

Definition not_fuel {A} (r : res A) : Prop := r <> Err OutOfFuel.

Lemma container_runtime_shape E s r s' :
  container_runtime E s = (r, s') ->
  trace s' = trace s /\ clock s' = clock s /\ not_fuel r.
Proof.
  unfold container_runtime, first_on_path, runtimes, bind, which, ret, raise. cbn.
  intros H. destruct (which_at E _ "docker") in H; cbn in H;
    [|destruct (which_at E _ "podman") in H; cbn in H];
    inversion H; subst; cbn; unfold not_fuel; repeat split; congruence.
Qed.

Lemma container_runtime_err E s e s' :
  container_runtime E s = (Err e, s') ->
  e = RuntimeError "No container runtime found, tried: docker podman".
Proof.
  unfold container_runtime, first_on_path, runtimes, bind, which, ret, raise. cbn.
  intros H. destruct (which_at E _ "docker") in H; cbn in H;
    [|destruct (which_at E _ "podman") in H; cbn in H];
    inversion H; reflexivity.
Qed.

(** [container_run] is [container_check_output] without the captured
    output, also in the [CalledProcessError] it raises. *)
Lemma container_run_cco args E s :
  container_run args E s =
  match container_check_output args E s with
  | (Ok _, s') => (Ok tt, s')
  | (Err (CalledProcessError c cmd _), s') => (Err (CalledProcessError c cmd None), s')
  | (Err e, s') => (Err e, s')
  end.
Proof.
  unfold container_run, container_check_output, bind.
  destruct (container_runtime E s) as [[rt|e] s1] eqn:Hr.
  - unfold subprocess_run, subprocess_call.
    destruct (answer E _ _) as [[|c|c] o|m]; reflexivity.
  - apply container_runtime_err in Hr. subst e. reflexivity.
Qed.

Lemma container_run_state args E s :
  snd (container_run args E s) = snd (container_check_output args E s).
Proof.
  rewrite container_run_cco. destruct (container_check_output args E s) as [[o|[]] s']; reflexivity.
Qed.

Lemma subprocess_call_shape cmd E s r s' :
  subprocess_call cmd E s = (r, s') ->
  trace s' = trace s ++ [cmd] /\ (clock s <= clock s')%Z /\ not_fuel r.
Proof.
  unfold subprocess_call.
  destruct (answer E (length (trace s)) cmd) as [[|c|c] o|m];
    intros H; inversion H; subst; cbn; unfold not_fuel; repeat split; try congruence; lia.
Qed.

Lemma cco_shape args E s r s' :
  container_check_output args E s = (r, s') ->
  (trace s' = trace s \/ exists rt, trace s' = trace s ++ [rt :: args])
  /\ (clock s <= clock s')%Z /\ not_fuel r.
Proof.
  unfold container_check_output, bind.
  destruct (container_runtime E s) as [[rt|e] s1] eqn:H1;
    apply container_runtime_shape in H1 as (Ht & Hc & Hf); intros H.
  - apply subprocess_call_shape in H as (Ht' & Hc' & Hf').
    split; [right; exists rt; congruence | split; [lia | auto]].
  - inversion H; subst. split; [left; auto | split; [lia | auto]].
Qed.

(** [cmd ;;; ret tt] guarded by [except CalledProcessError: pass] *)
Lemma swallowed_shape args E s r s' :
  catch_cpe (container_check_output args ;;; ret tt) (fun _ => ret tt) E s = (r, s') ->
  (trace s' = trace s \/ exists rt, trace s' = trace s ++ [rt :: args])
  /\ (clock s <= clock s')%Z /\ not_fuel r.
Proof.
  unfold catch_cpe, bind at 1.
  destruct (container_check_output args E s) as [[o|e] s1] eqn:H1;
    apply cco_shape in H1 as (Ht & Hc & Hf); intros H.
  - inversion H; subst. unfold not_fuel; repeat split; auto; congruence.
  - destruct e; inversion H; subst; unfold not_fuel; repeat split; auto; congruence.
Qed.

Lemma count_liveness_app n a b :
  count_liveness n (a ++ b) = count_liveness n a + count_liveness n b.
Proof. unfold count_liveness. rewrite filter_app, length_app. reflexivity. Qed.

Lemma catch_cpe_unfold {A} (m : M A) h E s :
  catch_cpe m h E s = match m E s with
                      | (Err (CalledProcessError c cmd o as e), s') => h e E s'
                      | r => r end.
Proof. reflexivity. Qed.

Lemma bind_unfold {A B} (m : M A) (k : A -> M B) E s :
  bind m k E s = match m E s with (Ok a, s') => k a E s' | (Err e, s') => (Err e, s') end.
Proof. reflexivity. Qed.

Lemma liveness_one n s s1 :
  (trace s1 = trace s \/ exists rt, trace s1 = trace s ++ [[rt; "exec"; "-t"; n; "id"]]) ->
  exists t, trace s1 = trace s ++ t /\ count_liveness n t <= 1.
Proof.
  intros [H|[rt H]]; [exists [] | exists [[rt; "exec"; "-t"; n; "id"]]];
    rewrite ?app_nil_r; split; auto; cbn; destruct (String.eqb n n); cbn; lia.
Qed.

Lemma liveness_none n x s s1 :
  x = "inspect" \/ x = "logs" ->
  (trace s1 = trace s \/ exists rt, trace s1 = trace s ++ [[rt; x; n]]) ->
  exists t, trace s1 = trace s ++ t /\ count_liveness n t = 0.
Proof.
  intros Hx [H|[rt H]]; [exists [] | exists [[rt; x; n]]];
    rewrite ?app_nil_r; split; auto; destruct Hx; subst; reflexivity.
Qed.




(** ** C2: bound on the number of liveness attempts *)

(** A liveness command that failed with a nonzero exit did run, and took
    its duration on the clock. *)
Lemma cco_cpe_clock args E s c cmd o s1 :
  container_check_output args E s = (Err (CalledProcessError c cmd o), s1) ->
  exists i, clock s1 = (clock s + Z.of_nat (duration E i))%Z.
Proof.
  unfold container_check_output. rewrite bind_unfold.
  destruct (container_runtime E s) as [[rt|e] s0] eqn:Hr.
  - pose proof Hr as Hr'. apply container_runtime_shape in Hr' as (_ & Hc & _).
    unfold subprocess_call.
    destruct (answer E _ _) as [[|p|p] out|m]; intros H; inversion H; subst;
      cbn; rewrite Hc; eauto.
  - apply container_runtime_err in Hr. subst e. discriminate.
Qed.

Section PositiveDurations.
Variable n : string.
Variable T : Z.
Variable E : env.
Hypothesis takes_time : forall i, (1 <= duration E i)%nat.

(** Every round that goes on to sleep costs more than the poll interval,
    so from elapsed time [e] at most [1 + (T_ms - e + 5000) / 5001] rounds
    remain (stated without division). *)
Lemma ready_loop_bound_pos now f : forall s r s',
  ready_loop n T now f E s = (r, s') ->
  (clock s - now <= seconds T + seconds poll_interval)%Z ->
  exists t, trace s' = trace s ++ t
            /\ (5001 * Z.of_nat (count_liveness n t)
                <= seconds T - (clock s - now) + 10001)%Z.
Proof.
  unfold seconds, poll_interval.
  induction f as [|f IH]; intros s r s' H Hinv; cbn [ready_loop] in H.
  { inversion H; subst. exists []. rewrite app_nil_r.
    change (count_liveness n []) with 0%nat. split; [reflexivity | lia]. }
  rewrite catch_cpe_unfold, bind_unfold in H.
  destruct (container_check_output ["exec"; "-t"; n; "id"] E s) as [[o1|e1] s1] eqn:H1;
    pose proof H1 as H1c; apply cco_shape in H1 as (Ht1 & Hc1 & _);
    apply liveness_one in Ht1 as (t1 & Ht1 & Hn1).
  all: try (cbn in H; inversion H; subst; exists t1; split; [auto | lia]; fail).
  all: destruct e1 as [c cmd o|m|m|];
    try (cbn in H; inversion H; subst; exists t1; split; [auto | lia]; fail).
  apply cco_cpe_clock in H1c as [i Hi]. pose proof (takes_time i) as Hd.
  cbn beta iota in H. unfold bind at 1 in H.
  destruct (catch_cpe (container_check_output ["inspect"; n] ;;; ret tt)
              (fun _ => ret tt) E s1) as [[[]|e2] s2] eqn:H2;
    apply swallowed_shape in H2 as (Ht2 & Hc2 & _);
    apply (liveness_none n) in Ht2 as (t2 & Ht2 & Hn2); auto.
  2: { inversion H; subst. exists (t1 ++ t2). split.
       - rewrite Ht2, Ht1, app_assoc. reflexivity.
       - rewrite count_liveness_app. lia. }
  unfold bind at 1 in H.
  destruct (catch_cpe (container_check_output ["logs"; n] ;;; ret tt)
              (fun _ => ret tt) E s2) as [[[]|e3] s3] eqn:H3;
    apply swallowed_shape in H3 as (Ht3 & Hc3 & _);
    apply (liveness_none n) in Ht3 as (t3 & Ht3 & Hn3); auto.
  2: { inversion H; subst. exists (t1 ++ t2 ++ t3). split.
       - rewrite Ht3, Ht2, Ht1, !app_assoc. reflexivity.
       - rewrite !count_liveness_app. lia. }
  cbn [bind time_time] in H. unfold seconds in H.
  destruct (Z.gtb (clock s3 - now) (1000 * T)) eqn:Hg.
  - cbn in H. inversion H; subst. exists (t1 ++ t2 ++ t3). split.
    + rewrite Ht3, Ht2, Ht1, !app_assoc. reflexivity.
    + rewrite !count_liveness_app. lia.
  - cbn [bind time_sleep] in H. rewrite Z.gtb_ltb, Z.ltb_ge in Hg.
    apply IH in H as (t4 & Ht4 & Hn4); cbn [clock] in *; unfold poll_interval in *; [|lia].
    exists (t1 ++ t2 ++ t3 ++ t4). split.
    + rewrite Ht4, Ht3, Ht2, Ht1, !app_assoc. reflexivity.
    + rewrite !count_liveness_app. lia.
Qed.

End PositiveDurations.

(** C2 (amended): the poll interval is the hard-coded 5 s.  When every
    command takes some time (at least 1 ms), [check_container_ready name T]
    with [T >= 0] issues at most [ceil(T/5) + 1] liveness commands, whatever
    the container and the runtime answer. *)
Theorem check_container_ready_attempts n T E s r s' :
  (0 <= T)%Z ->
  (forall i, (1 <= duration E i)%nat) ->
  check_container_ready n T E s = (r, s') ->
  exists t, trace s' = trace s ++ t
            /\ (Z.of_nat (count_liveness n t)
                <= (T + poll_interval - 1) / poll_interval + 1)%Z.
Proof.
  intros HT Hd H. unfold check_container_ready in H. rewrite bind_unfold in H.
  cbn [time_time] in H.
  apply (ready_loop_bound_pos n T E Hd) in H as (t & Ht & Hn);
    [|unfold seconds, poll_interval; lia].
  exists t. split; [exact Ht|]. unfold seconds, poll_interval in *.
  pose proof (Z.div_mod (T + 5 - 1) 5) as Hdm. pose proof (Z.mod_pos_bound (T + 5 - 1) 5) as Hm.
  lia.
Qed.

(** docker on PATH, every command exits 1 and takes 10 ms *)
Definition host_fast_failing : env :=
  {| which_at := fun _ b => String.eqb b "docker";
     answer := fun _ _ => Exited 1 "";
     duration := fun _ => 10%nat |}.

Lemma check_container_ready_attempts_witness :
  exists t, trace (snd (check_container_ready "c" 10 host_fast_failing mk_state))
            = trace mk_state ++ t
            /\ (Z.of_nat (count_liveness "c" t) <= (10 + poll_interval - 1) / poll_interval + 1)%Z.
Proof.
  apply (check_container_ready_attempts "c" 10 host_fast_failing mk_state
           (fst (check_container_ready "c" 10 host_fast_failing mk_state))).
  - lia.
  - intros i. cbn. lia.
  - vm_compute. reflexivity.
Defined.

(** C2 counterexample: with timeout 10 s and commands of 10 ms, a
    container that never answers gets 3 liveness attempts, not 2, before
    "Container c hasn't started". *)
Lemma check_container_ready_two_attempts_counterexample :
  let '(r, s) := check_container_ready "c" 10 host_fast_failing mk_state in
  r = Err (RuntimeError "Container c hasn't started")
  /\ count_liveness "c" (trace s) = 3%nat.
Proof. vm_compute. split; reflexivity. Qed.

(** ** C9: only nonzero exits of the liveness command are retried *)

(** C9: if the liveness command of a polling round raises anything but
    [CalledProcessError] (e.g. the runtime is no longer on PATH, so
    [container_runtime] raises), [check_container_ready]'s loop ends with
    that very exception in the state right after the failed command: no
    diagnostics, no sleep, no further round, no "hasn't started" error. *)
Theorem ready_loop_non_cpe_propagates n T now f E s e s' :
  container_check_output ["exec"; "-t"; n; "id"] E s = (Err e, s') ->
  (forall c cmd o, e <> CalledProcessError c cmd o) ->
  ready_loop n T now (S f) E s = (Err e, s').
Proof.
  intros H Hn. cbn [ready_loop]. rewrite catch_cpe_unfold, bind_unfold, H.
  destruct e as [c cmd o| | |]; [exfalso; eapply Hn; reflexivity | reflexivity..].
Qed.

(** No container runtime on PATH any more *)
Definition host_no_runtime : env :=
  {| which_at := fun _ _ => false; answer := fun _ _ => Exited 0 ""; duration := fun _ => O |}.

Lemma ready_loop_non_cpe_propagates_witness :
  ready_loop "c" 60 0 3 host_no_runtime mk_state
  = (Err (RuntimeError "No container runtime found, tried: docker podman"),
     {| probes := ["docker"; "podman"]; trace := []; clock := 0 |}).
Proof.
  apply (ready_loop_non_cpe_propagates "c" 60 0 2 host_no_runtime mk_state).
  - reflexivity.
  - intros c cmd o. discriminate.
Defined.

(** ** stop_container *)


Lemma stop_container_unfold n E s :
  stop_container n E s =
  match container_runtime E s with
  | (Err e, s1) => (Err e, s1)
  | (Ok rt, s1) =>
    match subprocess_call [rt; "inspect"; n] E s1 with
    | (Ok _, s2) => (container_check_output ["rm"; "-f"; n] ;;; ret tt) E s2
    | (Err (CalledProcessError _ _ _), s2) => (Ok tt, s2)
    | (Err e, s2) => (Err e, s2)
    end
  end.
Proof.
  unfold stop_container, catch_cpe. unfold container_check_output at 1.
  unfold bind at 1 2 3.
  destruct (container_runtime E s) as [[rt|e] s1] eqn:Hr;
    [|apply container_runtime_err in Hr; subst; reflexivity].
  destruct (subprocess_call [rt; "inspect"; n] E s1) as [[o|[c cmd o| | |]] s2]; reflexivity.
Qed.

(** ** C3: stopping an absent container *)

(** C3: whatever the name, when the runtime is found and its [inspect]
    of that name exits nonzero (no such container), [stop_container]
    returns normally and the only command it issued is that [inspect]. *)
Theorem stop_container_absent n E s rt s1 c o :
  container_runtime E s = (Ok rt, s1) ->
  answer E (length (trace s1)) [rt; "inspect"; n] = Exited c o ->
  c <> 0%Z ->
  fst (stop_container n E s) = Ok tt
  /\ trace (snd (stop_container n E s)) = trace s ++ [[rt; "inspect"; n]].
Proof.
  intros Hr Ha Hc. rewrite stop_container_unfold, Hr.
  apply container_runtime_shape in Hr as (Ht & _).
  unfold subprocess_call. rewrite Ha.
  destruct c; [contradiction | |]; cbn; rewrite Ht; split; reflexivity.
Qed.

Lemma stop_container_absent_witness :
  fst (stop_container "x" (host_all 1) mk_state) = Ok tt
  /\ trace (snd (stop_container "x" (host_all 1) mk_state)) = [] ++ [["docker"; "inspect"; "x"]].
Proof.
  apply (stop_container_absent "x" (host_all 1) mk_state "docker"
           {| probes := ["docker"]; trace := []; clock := 0 |} 1 "").
  - reflexivity.
  - reflexivity.
  - discriminate.
Defined.

(** ** C5: which inspect failures count as "not found" *)

(** C5 (amended): [stop_container] takes every nonzero exit of [inspect]
    as "no such container", whatever its code and output, and then returns
    normally without [rm]; the exceptions it raises are only the runtime
    lookup's [RuntimeError], an [OSError] from spawning, or the
    [CalledProcessError] of [rm -f]. *)
Theorem stop_container_errors n E s :
  (forall rt s1 c o,
     container_runtime E s = (Ok rt, s1) ->
     answer E (length (trace s1)) [rt; "inspect"; n] = Exited c o -> c <> 0%Z ->
     stop_container n E s = (Ok tt, snd (subprocess_call [rt; "inspect"; n] E s1)))
  /\ (forall e s', stop_container n E s = (Err e, s') ->
        (exists m, e = RuntimeError m) \/ (exists m, e = OSError m)
        \/ (exists c rt o, e = CalledProcessError c [rt; "rm"; "-f"; n] o)).
Proof.
  split.
  - intros rt s1 c o Hr Ha Hc. rewrite stop_container_unfold, Hr.
    unfold subprocess_call. rewrite Ha.
    destruct c; [contradiction | |]; reflexivity.
  - intros e s' H. rewrite stop_container_unfold in H.
    destruct (container_runtime E s) as [[rt|e0] s1] eqn:Hr.
    2: { inversion H; subst. left. apply container_runtime_err in Hr. eauto. }
    unfold subprocess_call at 1 in H.
    destruct (answer E (length (trace s1)) [rt; "inspect"; n]) as [[|c|c] o|m].
    2, 3: congruence.
    2: { inversion H; subst. right; left; eauto. }
    all: unfold container_check_output, bind in H.
    match type of H with context [container_runtime E ?st] =>
      destruct (container_runtime E st) as [[rt'|e1] s3] eqn:Hr'
    end;
      [|inversion H; subst; left; apply container_runtime_err in Hr'; eauto].
    unfold subprocess_call in H.
    match type of H with context [answer E ?i ?c] =>
      destruct (answer E i c) as [[|c'|c'] o'|m']
    end;
      inversion H; subst; right; [right | right | left]; eauto.
Qed.

(** The daemon cannot be reached: [inspect] exits 1 with the client's
    complaint, which is not "no such container". *)
Definition host_daemon_down : env :=
  {| which_at := fun _ b => String.eqb b "docker";
     answer := fun _ _ => Exited 1 "Cannot connect to the Docker daemon at unix:///var/run/docker.sock. Is the docker daemon running?";
     duration := fun _ => O |}.

(** C5 counterexample: with the runtime unreachable, [inspect] fails for a
    reason other than "no such container", yet [stop_container] returns
    normally instead of reporting an error. *)
Lemma stop_container_daemon_down_counterexample :
  stop_container "x" host_daemon_down mk_state
  = (Ok tt, {| probes := ["docker"]; trace := [["docker"; "inspect"; "x"]]; clock := 0 |}).
Proof. reflexivity. Qed.

(** ** C4: the runtime is looked up again for every command *)

(** C4 (amended): [container_runtime] keeps no cache.  Every runtime
    command, through [container_check_output] or [container_run], probes
    the search path afresh: "docker" first, then "podman" only when docker
    is missing; it runs under the runtime found by these probes, and runs
    nothing when neither is found. *)
Theorem container_runtime_reprobed args E s :
  let k := length (probes s) in
  probes (snd (container_check_output args E s))
    = probes s ++ (if which_at E k "docker" then ["docker"] else ["docker"; "podman"])
  /\ trace (snd (container_check_output args E s))
    = trace s ++ (if which_at E k "docker" then [("docker" :: args)]
                  else if which_at E (S k) "podman" then [("podman" :: args)] else [])
  /\ snd (container_run args E s) = snd (container_check_output args E s).
Proof.
  intros k. split; [|split; [|apply container_run_state]];
    unfold container_check_output, container_runtime, first_on_path, runtimes,
      bind, which, ret, raise; cbn; subst k.
  all: destruct (which_at E (length (probes s)) "docker");
    [unfold subprocess_call; cbn; destruct (answer E _ _) as [[|c|c] o|m]; reflexivity|].
  all: cbn [probes trace clock]; rewrite length_app, Nat.add_1_r; cbn.
  all: destruct (which_at E (S (length (probes s))) "podman");
    [unfold subprocess_call; cbn; destruct (answer E _ _) as [[|c|c] o|m]|];
    cbn; rewrite ?app_nil_r, <- ?app_assoc; reflexivity.
Qed.

(** docker is on PATH at the first probe only, podman afterwards *)
Definition host_docker_vanishes : env :=
  {| which_at := fun k b => if Nat.eqb k 0 then String.eqb b "docker"
                           else String.eqb b "podman";
     answer := fun _ _ => Exited 0 "";
     duration := fun _ => O |}.

(** C4 counterexample: [stop_container] on an existing container probes
    the search path once per command ("docker" twice), and when docker
    leaves the PATH in between, the [rm] runs under podman. *)
Lemma container_runtime_not_cached_counterexample :
  stop_container "x" host_docker_vanishes mk_state
  = (Ok tt, {| probes := ["docker"; "docker"; "podman"];
               trace := [["docker"; "inspect"; "x"]; ["podman"; "rm"; "-f"; "x"]];
               clock := 0 |}).
Proof. reflexivity. Qed.

(** ** C6: the step-5 logs read is fatal *)

(** C6 (code deviates from the best-effort logs read): unlike the same
    [logs] read inside [check_container_ready], which is wrapped in
    [except CalledProcessError], the logs read of step 5 is not guarded:
    when steps 1-4 succeed and [logs] raises (nonzero exit or otherwise),
    [run_test] raises the same exception in the state right after the
    [logs] command, so none of steps 6-10 is issued. *)
Theorem run_test_logs_failure_aborts sp img tn bps tf uf ia E s s1 e s2 :
  run_seq (map (step_action sp img tn bps tf uf ia) [Stop; Run; Wait; Copy]) E s = (Ok tt, s1) ->
  container_check_output ["logs"; tn] E s1 = (Err e, s2) ->
  run_test sp img tn bps tf uf ia E s = (Err e, s2).
Proof.
  intros H1 H2. rewrite run_test_is_plan. unfold plan.
  change ([Stop; Run; Wait; Copy; Logs] ++ ?rest)
    with ([Stop; Run; Wait; Copy] ++ Logs :: rest).
  eapply run_seq_map_abort; [exact H1|].
  cbn [step_action]. unfold bind. rewrite H2. reflexivity.
Qed.

(** Every command succeeds except [logs] *)
Definition host_logs_fail : env :=
  {| which_at := fun _ b => String.eqb b "docker";
     answer := fun _ c => match c with
                          | [_; "logs"; _] => Exited 1 "Error response from daemon"
                          | _ => Exited 0 ""
                          end;
     duration := fun _ => O |}.

Definition state_after_copy : state :=
  snd (run_seq (map (step_action "/repo" "tljh-systemd" "t1" None ["a.py"] "" "")
                    [Stop; Run; Wait; Copy]) host_logs_fail mk_state).

Lemma run_test_logs_failure_aborts_witness :
  run_test "/repo" "tljh-systemd" "t1" None ["a.py"] "" "" host_logs_fail mk_state
  = (Err (CalledProcessError 1 ["docker"; "logs"; "t1"] (Some "Error response from daemon")),
     snd (container_check_output ["logs"; "t1"] host_logs_fail state_after_copy)).
Proof.
  apply (run_test_logs_failure_aborts "/repo" "tljh-systemd" "t1" None ["a.py"] "" ""
           host_logs_fail mk_state state_after_copy).
  - vm_compute. reflexivity.
  - vm_compute. reflexivity.
Defined.

(** C6 counterexample: a failing logs read aborts the run: [run_test]
    raises, and the last command issued is that [logs], before any of the
    installer, dependency, freeze or suite commands. *)
Lemma run_test_logs_failure_counterexample :
  let '(r, s) := run_test "/repo" "tljh-systemd" "t1" None ["a.py"] "" ""
                          host_logs_fail mk_state in
  r = Err (CalledProcessError 1 ["docker"; "logs"; "t1"] (Some "Error response from daemon"))
  /\ last (trace s) [] = ["docker"; "logs"; "t1"]
  /\ ~ In ["docker"; "exec"; "-t"; "t1"; "/bin/bash"; "-c"; installer_command ""] (trace s).
Proof.
  vm_compute. split; [reflexivity | split; [reflexivity |]].
  intros H. repeat destruct H as [H|H]; try discriminate; contradiction.
Qed.

(** ** C7: how the test container is launched *)

Lemma cco_one_command args E s :
  (fst (container_check_output args E s)
     = Err (RuntimeError "No container runtime found, tried: docker podman")
   /\ trace (snd (container_check_output args E s)) = trace s)
  \/ exists rt, trace (snd (container_check_output args E s)) = trace s ++ [rt :: args].
Proof.
  destruct (container_check_output args E s) as [r s'] eqn:H. cbn.
  pose proof H as H'. unfold container_check_output, bind in H'.
  destruct (container_runtime E s) as [[rt|e] s1] eqn:Hr.
  - right. apply subprocess_call_shape in H' as (Ht & _).
    apply container_runtime_shape in Hr as (Ht1 & _). exists rt. congruence.
  - left. inversion H'; subst. pose proof (container_runtime_err _ _ _ _ Hr) as He.
    apply container_runtime_shape in Hr as (Ht1 & _). subst e.
    split; [reflexivity | exact Ht1].
Qed.

Lemma snd_bind_ret {A} (m : M A) E s : snd ((m ;;; ret tt) E s) = snd (m E s).
Proof. unfold bind. destruct (m E s) as [[a|e] s']; reflexivity. Qed.


(** C7: [run_systemd_image] either fails to find a runtime and issues
    nothing, or issues exactly one [run] command: detached, privileged,
    memory capped at 900m, and carrying [-e TLJH_BOOTSTRAP_PIP_SPEC=<spec>]
    exactly when [bootstrap_pip_spec] is a non-empty string. *)
Theorem run_systemd_image_command img n bps E s :
  (trace (snd (run_systemd_image img n bps E s)) = trace s
   \/ exists rt, trace (snd (run_systemd_image img n bps E s))
                 = trace s ++ [rt :: run_args img n bps])
  /\ run_args img n bps
     = ["run"; "--privileged"; "--detach"; ("--name=" ++ n)%string; "--memory=900m"]
       ++ (if truthy bps
           then ["-e"; ("TLJH_BOOTSTRAP_PIP_SPEC=" ++ match bps with Some v => v | None => "" end)%string]
           else [])
       ++ [img].
Proof.
  split.
  - unfold run_systemd_image. rewrite snd_bind_ret.
    destruct (cco_one_command (run_args img n bps) E s) as [[Hf Ht]|[rt Ht]]; eauto.
  - unfold run_args, truthy. destruct bps as [[|ch v]|]; reflexivity.
Qed.

(** ** C8: build arguments *)

(** C8: [build_systemd_image] issues (at most) one [build] command, in
    which each build argument becomes its own [--build-arg=] flag, in the
    order given and duplicates kept; with [A=1; B=2] the flags are
    [--build-arg=A=1] then [--build-arg=B=2]. *)
Theorem build_systemd_image_command img path bas E s :
  (trace (snd (build_systemd_image img path bas E s)) = trace s
   \/ exists rt, trace (snd (build_systemd_image img path bas E s))
                 = trace s ++ [rt :: ["build"; ("-t=" ++ img)%string; path]
                                  ++ map (fun ba => ("--build-arg=" ++ ba)%string)
                                         (match bas with Some l => l | None => [] end)])
  /\ trace (snd (build_systemd_image "tljh-systemd" "integration-tests" (Some ["A=1"; "B=2"])
                                     (host_all 0) mk_state))
     = [["docker"; "build"; "-t=tljh-systemd"; "integration-tests";
         "--build-arg=A=1"; "--build-arg=B=2"]].
Proof.
  split; [|reflexivity].
  unfold build_systemd_image.
  set (args := match bas with
               | Some ((_ :: _) as l) => ["build"; ("-t=" ++ img)%string; path]
                                         ++ map (fun ba => ("--build-arg=" ++ ba)%string) l
               | _ => ["build"; ("-t=" ++ img)%string; path]
               end).
  assert (Ha : args = ["build"; ("-t=" ++ img)%string; path]
                      ++ map (fun ba => ("--build-arg=" ++ ba)%string)
                             (match bas with Some l => l | None => [] end)).
  { subst args. destruct bas as [[|b l]|]; cbn; rewrite ?app_nil_r; reflexivity. }
  rewrite <- Ha, snd_bind_ret.
  destruct (cco_one_command args E s) as [[Hf Ht]|[rt Ht]]; eauto.
Qed.

(** ** C10: no teardown after the pre-cleanup *)

(** [m] only appends commands that do not remove or stop a container. *)
Definition no_teardown {A} (m : M A) : Prop :=
  forall E s, exists t, trace (snd (m E s)) = trace s ++ t
                        /\ Forall (fun c => is_teardown c = false) t.

Lemma no_teardown_ret {A} (a : A) : no_teardown (ret a).
Proof. intros E s. exists []. rewrite app_nil_r. auto. Qed.

Lemma no_teardown_raise {A} e : no_teardown (@raise A e).
Proof. intros E s. exists []. rewrite app_nil_r. auto. Qed.

Lemma no_teardown_time : no_teardown time_time.
Proof. intros E s. exists []. rewrite app_nil_r. auto. Qed.

Lemma no_teardown_sleep d : no_teardown (time_sleep d).
Proof. intros E s. exists []. rewrite app_nil_r. auto. Qed.

Lemma no_teardown_bind {A B} (m : M A) (k : A -> M B) :
  no_teardown m -> (forall a, no_teardown (k a)) -> no_teardown (bind m k).
Proof.
  intros Hm Hk E s. unfold bind. destruct (Hm E s) as (t1 & Ht1 & Hf1).
  destruct (m E s) as [[a|e] s1]; cbn in *.
  - destruct (Hk a E s1) as (t2 & Ht2 & Hf2). exists (t1 ++ t2).
    rewrite Ht2, Ht1, app_assoc. split; [reflexivity | apply Forall_app; auto].
  - eauto.
Qed.

Lemma no_teardown_catch {A} (m : M A) h :
  no_teardown m -> (forall e, no_teardown (h e)) -> no_teardown (catch_cpe m h).
Proof.
  intros Hm Hh E s. unfold catch_cpe. destruct (Hm E s) as (t1 & Ht1 & Hf1).
  destruct (m E s) as [[a|[c cmd o| | |]] s1]; cbn in *; eauto.
  destruct (Hh (CalledProcessError c cmd o) E s1) as (t2 & Ht2 & Hf2). exists (t1 ++ t2).
  rewrite Ht2, Ht1, app_assoc. split; [reflexivity | apply Forall_app; auto].
Qed.

Lemma no_teardown_cco args :
  (forall rt, is_teardown (rt :: args) = false) -> no_teardown (container_check_output args).
Proof.
  intros Ha E s. destruct (cco_one_command args E s) as [[_ Ht]|[rt Ht]].
  - exists []. rewrite app_nil_r. auto.
  - exists [rt :: args]. auto.
Qed.

Lemma no_teardown_run args :
  (forall rt, is_teardown (rt :: args) = false) -> no_teardown (container_run args).
Proof.
  intros Ha E s. destruct (no_teardown_cco args Ha E s) as (t & Ht & Hf).
  exists t. split; [|exact Hf]. rewrite <- Ht. f_equal. apply container_run_state.
Qed.

Lemma no_teardown_ready_loop n T now f : no_teardown (ready_loop n T now f).
Proof.
  induction f as [|f IH]; cbn [ready_loop]; [apply no_teardown_raise|].
  apply no_teardown_catch; intros.
  - apply no_teardown_bind; [apply no_teardown_cco; reflexivity | intros; apply no_teardown_ret].
  - repeat (apply no_teardown_bind; intros);
      try (apply no_teardown_catch; intros;
           [apply no_teardown_bind; [apply no_teardown_cco; reflexivity | intros] |]);
      try apply no_teardown_ret; try apply no_teardown_time.
    match goal with |- no_teardown (if Z.gtb (?t - now) ?u then _ else _) => destruct (Z.gtb (t - now) u) end;
      [apply no_teardown_raise | apply no_teardown_bind; [apply no_teardown_sleep | auto]].
Qed.

Lemma no_teardown_run_seq l : Forall no_teardown l -> no_teardown (run_seq l).
Proof.
  induction 1 as [|a l Ha Hl IH]; cbn; [apply no_teardown_ret|].
  apply no_teardown_bind; auto.
Qed.

Lemma no_teardown_after_stop sp img tn bps tf uf ia st :
  st <> Stop -> no_teardown (step_action sp img tn bps tf uf ia st).
Proof.
  intros Hs. destruct st; cbn [step_action]; try congruence;
    try (unfold run_container_command; apply no_teardown_run; reflexivity).
  - unfold run_systemd_image. apply no_teardown_bind; [|intros; apply no_teardown_ret].
    apply no_teardown_cco. intros rt. unfold run_args.
    destruct bps as [[|c v]|]; reflexivity.
  - unfold check_container_ready. apply no_teardown_bind;
      [apply no_teardown_time | intros; apply no_teardown_ready_loop].
  - apply no_teardown_bind; intros; unfold copy_to_container;
      (apply no_teardown_bind; [apply no_teardown_cco; reflexivity | intros; apply no_teardown_ret]).
  - apply no_teardown_bind; [apply no_teardown_cco; reflexivity | intros; apply no_teardown_ret].
Qed.

Lemma stop_container_appends tn E s :
  exists t1, trace (snd (stop_container tn E s)) = trace s ++ t1.
Proof.
  rewrite stop_container_unfold.
  destruct (container_runtime E s) as [[rt|e] s1] eqn:Hr;
    apply container_runtime_shape in Hr as (Ht & _).
  - destruct (subprocess_call [rt; "inspect"; tn] E s1) as [[o|e] s2] eqn:Hsc;
      apply subprocess_call_shape in Hsc as (Ht2 & _).
    + rewrite snd_bind_ret.
      destruct (cco_one_command ["rm"; "-f"; tn] E s2) as [[_ Ht3]|[rt' Ht3]];
        rewrite Ht3, Ht2, Ht; eexists; rewrite <- ?app_assoc; reflexivity.
    + destruct e; cbn; eexists; rewrite Ht2, Ht; reflexivity.
  - exists []. rewrite app_nil_r. cbn. exact Ht.
Qed.

(** C10: [run_test] has no teardown: after the commands of the step-1
    [stop_container], whatever succeeds or fails, none of the commands it
    issues is an [rm], [stop] or [kill] of the runtime, so a container it
    started is left in the runtime's namespace. *)
Theorem run_test_no_teardown sp img tn bps tf uf ia E s :
  exists t1 t2,
    trace (snd (stop_container tn E s)) = trace s ++ t1
    /\ trace (snd (run_test sp img tn bps tf uf ia E s)) = trace s ++ t1 ++ t2
    /\ Forall (fun c => is_teardown c = false) t2.
Proof.
  assert (Hp : plan uf = Stop :: skipn 1 (plan uf))
    by (unfold plan; destruct (String.eqb uf ""); reflexivity).
  assert (Hr : no_teardown (run_seq (map (step_action sp img tn bps tf uf ia)
                                         (skipn 1 (plan uf))))).
  { apply no_teardown_run_seq, Forall_map, Forall_forall.
    intros st Hin. apply no_teardown_after_stop. intros ->.
    unfold plan in Hin. destruct (String.eqb uf ""); cbn in Hin; intuition discriminate. }
  destruct (stop_container_appends tn E s) as (t1 & Ht1).
  rewrite run_test_is_plan, Hp. cbn [map run_seq]. rewrite bind_unfold.
  cbn [step_action].
  destruct (stop_container tn E s) as [[[]|e] s1]; cbn in Ht1.
  - destruct (Hr E s1) as (t2 & Ht2 & Hf2).
    exists t1, t2. rewrite Ht2, Ht1, app_assoc. auto.
  - exists t1, []. rewrite app_nil_r. auto.
Qed.

Lemma run_test_step_order_witness :
  run_test "/repo" "tljh-systemd" "t1" None ["a.py"] "" "" host_logs_fail mk_state
  = (Err (CalledProcessError 1 ["docker"; "logs"; "t1"] (Some "Error response from daemon")),
     snd (step_action "/repo" "tljh-systemd" "t1" None ["a.py"] "" "" Logs
                      host_logs_fail state_after_copy)).
Proof.
  destruct (run_test_step_order "/repo" "tljh-systemd" "t1" None ["a.py"] "" "")
    as (_ & _ & _ & H).
  apply (H [Stop; Run; Wait; Copy] Logs [Install; Deps; Freeze; Suite]
           host_logs_fail mk_state state_after_copy).
  - reflexivity.
  - vm_compute. reflexivity.
  - vm_compute. reflexivity.
Defined.

Lemma stop_container_errors_witness :
  stop_container "x" host_daemon_down mk_state
  = (Ok tt, snd (subprocess_call ["docker"; "inspect"; "x"] host_daemon_down
                                 {| probes := ["docker"]; trace := []; clock := 0 |})).
Proof.
  destruct (stop_container_errors "x" host_daemon_down mk_state) as (H & _).
  apply (H "docker" {| probes := ["docker"]; trace := []; clock := 0 |} 1%Z
           "Cannot connect to the Docker daemon at unix:///var/run/docker.sock. Is the docker daemon running?").
  - reflexivity.
  - reflexivity.
  - discriminate.
Defined.

(** * Further properties of the harness *)

(** ** The command line *)

(** [start-container] reads [args.bootstrap_pip_spec], which only the
    [run-test] subparser declares: it always fails with [AttributeError]
    before running anything, and it is the only subcommand that does. *)
Theorem main_dispatch_attribute_error sp p :
  (exists a, main_dispatch sp (namespace_of p) = inl a)
  <-> exists n, p = PStartContainer n.
Proof.
  split.
  - intros [a H]. destruct p; cbn in H; try discriminate. eauto.
  - intros [n ->]. exists "bootstrap_pip_spec". reflexivity.
Qed.

(** [build-image] builds tag [tljh-systemd] from context [integration-tests].
    When a runtime is found it issues exactly one build command, with no
    build-arg flag without [--build-arg] and one flag per occurrence, in
    command-line order, otherwise; when none is found it issues nothing and
    raises the lookup error. *)
Theorem main_build_image_command sp ba E s :
  exists m, main_dispatch sp (namespace_of (PBuildImage ba)) = inr m
  /\ match container_runtime E s with
     | (Ok rt, _) =>
       trace (snd (m E s))
       = trace s ++ [rt :: ["build"; "-t=tljh-systemd"; "integration-tests"]
                        ++ map (fun b => ("--build-arg=" ++ b)%string)
                               (match ba with Some l => l | None => [] end)]
     | (Err e, s1) => m E s = (Err e, s1)
     end.
Proof.
  eexists. split; [reflexivity|]. unfold build_systemd_image.
  set (args := match ba with
               | Some ((_ :: _) as l) => ["build"; ("-t=" ++ main_image_name)%string; "integration-tests"]
                                         ++ map (fun b => ("--build-arg=" ++ b)%string) l
               | _ => ["build"; ("-t=" ++ main_image_name)%string; "integration-tests"]
               end).
  assert (Ha : args = ["build"; "-t=tljh-systemd"; "integration-tests"]
                      ++ map (fun b => ("--build-arg=" ++ b)%string)
                             (match ba with Some l => l | None => [] end)).
  { subst args. destruct ba as [[|b l]|]; cbn; rewrite ?app_nil_r; reflexivity. }
  rewrite <- Ha. destruct (container_runtime E s) as [[rt|e] s1] eqn:Hr.
  - rewrite snd_bind_ret. unfold container_check_output. rewrite bind_unfold, Hr.
    apply container_runtime_shape in Hr as (Ht1 & _).
    destruct (subprocess_call (rt :: args) E s1) as [r2 s2] eqn:Hs.
    apply subprocess_call_shape in Hs as (Ht2 & _). cbn. congruence.
  - unfold container_check_output. rewrite !bind_unfold, Hr. reflexivity.
Qed.

(** ** stop_container on an existing container *)

(** When [inspect] succeeds, [stop_container] goes on with [rm -f] of the
    same name, and its outcome is that of the [rm -f]. *)
Theorem stop_container_present n E s rt s1 o :
  container_runtime E s = (Ok rt, s1) ->
  answer E (length (trace s1)) [rt; "inspect"; n] = Exited 0 o ->
  stop_container n E s
  = (container_check_output ["rm"; "-f"; n] ;;; ret tt) E
      {| probes := probes s1; trace := trace s1 ++ [[rt; "inspect"; n]];
         clock := clock s1 + Z.of_nat (duration E (length (trace s1))) |}.
Proof.
  intros Hr Ha. rewrite stop_container_unfold, Hr. unfold subprocess_call at 1.
  rewrite Ha. reflexivity.
Qed.

Lemma stop_container_present_witness :
  stop_container "x" (host_all 0) mk_state
  = (container_check_output ["rm"; "-f"; "x"] ;;; ret tt) (host_all 0)
      {| probes := ["docker"]; trace := [] ++ [["docker"; "inspect"; "x"]];
         clock := 0 + Z.of_nat (duration (host_all 0) 0) |}.
Proof.
  apply (stop_container_present "x" (host_all 0) mk_state "docker"
           {| probes := ["docker"]; trace := []; clock := 0 |} "").
  - reflexivity.
  - reflexivity.
Defined.

(** ** show_logs *)

(** [show_logs] has no guard: when [journalctl] fails, it raises that
    exception and [systemctl status] is never run. *)
Theorem show_logs_journal_failure_aborts n E s e s1 :
  run_container_command n "journalctl --no-pager" E s = (Err e, s1) ->
  show_logs n E s = (Err e, s1).
Proof. intros H. unfold show_logs, bind at 1. rewrite H. reflexivity. Qed.

Lemma show_logs_journal_failure_aborts_witness :
  show_logs "c" (host_all 1) mk_state
  = (Err (CalledProcessError 1 ["docker"; "exec"; "-t"; "c"; "/bin/bash"; "-c";
                                "journalctl --no-pager"] None),
     {| probes := ["docker"];
        trace := [["docker"; "exec"; "-t"; "c"; "/bin/bash"; "-c"; "journalctl --no-pager"]];
        clock := 0 |}).
Proof. apply show_logs_journal_failure_aborts. reflexivity. Defined.

(** ** The readiness probe *)

Lemma container_runtime_docker E s :
  which_at E (length (probes s)) "docker" = true ->
  container_runtime E s
  = (Ok "docker", {| probes := probes s ++ ["docker"]; trace := trace s; clock := clock s |}).
Proof.
  intros Hw. unfold container_runtime, first_on_path, runtimes, bind, which, ret.
  cbn. rewrite Hw. reflexivity.
Qed.

Lemma container_runtime_ok_in E s rt s' :
  container_runtime E s = (Ok rt, s') -> rt = "docker" \/ rt = "podman".
Proof.
  unfold container_runtime, first_on_path, runtimes, bind, which, ret, raise. cbn.
  intros H. destruct (which_at E _ "docker") in H; cbn in H;
    [|destruct (which_at E _ "podman") in H; cbn in H];
    inversion H; auto.
Qed.

(** The state after docker is found and [docker :: args] has run. *)
Definition after_docker (E : env) (args : list string) (s : state) : state :=
  {| probes := probes s ++ ["docker"]; trace := trace s ++ [("docker" :: args)];
     clock := clock s + Z.of_nat (duration E (length (trace s))) |}.

Lemma cco_docker_answer E args s :
  which_at E (length (probes s)) "docker" = true ->
  container_check_output args E s
  = match answer E (length (trace s)) ("docker" :: args) with
    | Exited 0 out => (Ok out, after_docker E args s)
    | Exited c out => (Err (CalledProcessError c ("docker" :: args) (Some out)), after_docker E args s)
    | SpawnFailed m => (Err (OSError m), after_docker E args s)
    end.
Proof.
  intros Hw. unfold container_check_output. rewrite bind_unfold, container_runtime_docker by exact Hw.
  reflexivity.
Qed.



Section NeverReady.
Variable n : string.
Variable E : env.
Hypothesis docker_found : forall i, which_at E i "docker" = true.
Hypothesis spawns : forall i c, exists code o, answer E i c = Exited code o.
Hypothesis never_live :
  forall i, exists code o, code <> 0%Z /\ answer E i ["docker"; "exec"; "-t"; n; "id"] = Exited code o.



End NeverReady.



(** ** What the commands touch *)

(** [m] only appends commands satisfying [P]. *)
Definition only_issues {A} (P : list string -> Prop) (m : M A) : Prop :=
  forall E s, exists t, trace (snd (m E s)) = trace s ++ t /\ Forall P t.

Section OnlyIssues.
Variable P : list string -> Prop.

Lemma only_issues_nil {A} (m : M A) :
  (forall E s, trace (snd (m E s)) = trace s) -> only_issues P m.
Proof. intros H E s. exists []. rewrite app_nil_r. auto. Qed.

Lemma only_issues_ret {A} (a : A) : only_issues P (ret a).
Proof. apply only_issues_nil. reflexivity. Qed.

Lemma only_issues_raise {A} e : only_issues P (@raise A e).
Proof. apply only_issues_nil. reflexivity. Qed.

Lemma only_issues_time : only_issues P time_time.
Proof. apply only_issues_nil. reflexivity. Qed.

Lemma only_issues_sleep d : only_issues P (time_sleep d).
Proof. apply only_issues_nil. reflexivity. Qed.

Lemma only_issues_bind {A B} (m : M A) (k : A -> M B) :
  only_issues P m -> (forall a, only_issues P (k a)) -> only_issues P (bind m k).
Proof.
  intros Hm Hk E s. unfold bind. destruct (Hm E s) as (t1 & Ht1 & Hf1).
  destruct (m E s) as [[a|e] s1]; cbn in *.
  - destruct (Hk a E s1) as (t2 & Ht2 & Hf2). exists (t1 ++ t2).
    rewrite Ht2, Ht1, app_assoc. split; [reflexivity | apply Forall_app; auto].
  - eauto.
Qed.

Lemma only_issues_catch {A} (m : M A) h :
  only_issues P m -> (forall e, only_issues P (h e)) -> only_issues P (catch_cpe m h).
Proof.
  intros Hm Hh E s. unfold catch_cpe. destruct (Hm E s) as (t1 & Ht1 & Hf1).
  destruct (m E s) as [[a|[c cmd o| | |]] s1]; cbn in *; eauto.
  destruct (Hh (CalledProcessError c cmd o) E s1) as (t2 & Ht2 & Hf2). exists (t1 ++ t2).
  rewrite Ht2, Ht1, app_assoc. split; [reflexivity | apply Forall_app; auto].
Qed.

Lemma only_issues_cco args :
  (forall rt, rt = "docker" \/ rt = "podman" -> P (rt :: args)) ->
  only_issues P (container_check_output args).
Proof.
  intros HP E s. unfold container_check_output, bind.
  destruct (container_runtime E s) as [[rt|e] s1] eqn:Hr.
  - pose proof (container_runtime_ok_in _ _ _ _ Hr) as Hin.
    apply container_runtime_shape in Hr as (Ht1 & _).
    destruct (subprocess_call (rt :: args) E s1) as [r s2] eqn:Hs.
    apply subprocess_call_shape in Hs as (Ht2 & _). exists [rt :: args].
    cbn. rewrite Ht2, Ht1. auto.
  - apply container_runtime_shape in Hr as (Ht1 & _). exists []. rewrite app_nil_r. auto.
Qed.

Lemma only_issues_cco_unit args :
  (forall rt, rt = "docker" \/ rt = "podman" -> P (rt :: args)) ->
  only_issues P (container_check_output args ;;; ret tt).
Proof. intros H. apply only_issues_bind; [apply only_issues_cco, H | intros; apply only_issues_ret]. Qed.

Lemma only_issues_run args :
  (forall rt, rt = "docker" \/ rt = "podman" -> P (rt :: args)) ->
  only_issues P (container_run args).
Proof.
  intros Ha E s. destruct (only_issues_cco args Ha E s) as (t & Ht & Hf).
  exists t. split; [|exact Hf]. rewrite <- Ht. f_equal. apply container_run_state.
Qed.

Lemma only_issues_weaken {A} (Q : list string -> Prop) (m : M A) :
  (forall c, Q c -> P c) -> only_issues Q m -> only_issues P m.
Proof.
  intros HQ Hm E s. destruct (Hm E s) as (t & Ht & Hf). exists t.
  split; [exact Ht | eapply Forall_impl; eauto].
Qed.

End OnlyIssues.

(** The commands of the readiness probe on container [n]. *)
Definition probe_cmd (n : string) (c : list string) : Prop :=
  exists rt, (rt = "docker" \/ rt = "podman")
             /\ (c = [rt; "exec"; "-t"; n; "id"] \/ c = [rt; "inspect"; n] \/ c = [rt; "logs"; n]).

Lemma only_issues_ready_loop n T now f : only_issues (probe_cmd n) (ready_loop n T now f).
Proof.
  induction f as [|f IH]; cbn [ready_loop]; [apply only_issues_raise|].
  apply only_issues_catch; intros.
  - apply only_issues_cco_unit. intros rt Hrt. exists rt. auto.
  - apply only_issues_bind; intros.
    { apply only_issues_catch; intros; [|apply only_issues_ret].
      apply only_issues_cco_unit. intros rt Hrt. exists rt. auto. }
    apply only_issues_bind; intros.
    { apply only_issues_catch; intros; [|apply only_issues_ret].
      apply only_issues_cco_unit. intros rt Hrt. exists rt. auto. }
    apply only_issues_bind; [apply only_issues_time | intros t].
    destruct (Z.gtb (t - now) (seconds T));
      [apply only_issues_raise | apply only_issues_bind; [apply only_issues_sleep | auto]].
Qed.

(** [check_container_ready n] is read-only and confined to [n]: it issues
    only [exec -t n id], [inspect n] and [logs n], through docker or
    podman, and never starts, stops or removes anything. *)
Theorem check_container_ready_read_only n T E s :
  exists t, trace (snd (check_container_ready n T E s)) = trace s ++ t
            /\ Forall (probe_cmd n) t.
Proof.
  revert E s. unfold check_container_ready.
  apply only_issues_bind; [apply only_issues_time | intros now; apply only_issues_ready_loop].
Qed.

(** The container a runtime command acts on is [tn]: the operand of
    [inspect], [rm -f], [logs] and [exec -t], the [--name=] of [run] (its
    fifth word), the container of a [cp] destination [tn:path]. *)
Definition acts_on (tn : string) (c : list string) : Prop :=
  match c with
  | [_; "inspect"; n] => n = tn
  | [_; "rm"; "-f"; n] => n = tn
  | [_; "logs"; n] => n = tn
  | _ :: "exec" :: "-t" :: n :: _ => n = tn
  | _ :: "run" :: "--privileged" :: "--detach" :: nm :: _ => nm = ("--name=" ++ tn)%string
  | [_; "cp"; _; dst] => exists p, dst = (tn ++ ":" ++ p)%string
  | _ => False
  end.

(** [run_test] only ever acts on its own test container: the container
    operand of every command it issues is [test_name]. *)
Theorem run_test_targets_only_test_container sp img tn bps tf uf ia E s :
  exists t, trace (snd (run_test sp img tn bps tf uf ia E s)) = trace s ++ t
            /\ Forall (acts_on tn) t.
Proof.
  revert E s. unfold run_test, stop_container, run_systemd_image, check_container_ready,
    copy_to_container, run_container_command.
  assert (Hrun : forall rt, acts_on tn (rt :: run_args img tn bps)).
  { intros rt. unfold run_args. destruct bps as [[|c v]|]; reflexivity. }
  assert (Hprobe : forall c, probe_cmd tn c -> acts_on tn c).
  { intros c (rt & _ & [->|[->| ->]]); reflexivity. }
  repeat first
    [ apply only_issues_cco; intros;
      first [reflexivity | apply Hrun | eexists; reflexivity]
    | apply only_issues_run; intros; reflexivity
    | apply (only_issues_weaken _ (probe_cmd tn)); [exact Hprobe | apply only_issues_ready_loop]
    | apply only_issues_bind; [|intros]
    | apply only_issues_catch; [|intros]
    | apply only_issues_ret
    | apply only_issues_time
    | match goal with |- only_issues _ (if ?b then _ else _) => destruct b end ].
Qed.


(** ** A run where every command succeeds *)

Section AllSucceed.
Variable E : env.
Hypothesis docker_found : forall i, which_at E i "docker" = true.
Hypothesis all_exit_0 : forall i c, exists o, answer E i c = Exited 0 o.

(** [m] succeeds from every state, appending exactly [t]. *)
Definition ok_with {A} (m : M A) (t : list (list string)) : Prop :=
  forall s, exists a s', m E s = (Ok a, s') /\ trace s' = trace s ++ t.

Lemma ok_with_bind {A B} (m : M A) (k : A -> M B) t1 t2 :
  ok_with m t1 -> (forall a, ok_with (k a) t2) -> ok_with (bind m k) (t1 ++ t2).
Proof.
  intros Hm Hk s. destruct (Hm s) as (a & s1 & H1 & Ht1).
  destruct (Hk a s1) as (b & s2 & H2 & Ht2). exists b, s2.
  rewrite bind_unfold, H1, H2, Ht2, Ht1, app_assoc. auto.
Qed.


Lemma ok_with_cco args : ok_with (container_check_output args) [("docker" :: args)].
Proof.
  intros s. rewrite cco_docker_answer by apply docker_found.
  destruct (all_exit_0 (length (trace s)) ("docker" :: args)) as [o ->]. eauto.
Qed.


Lemma ok_with_run args : ok_with (container_run args) [("docker" :: args)].
Proof.
  intros s. destruct (ok_with_cco args s) as (o & s' & H & Ht). exists tt, s'. split; [|exact Ht].
  rewrite container_run_cco, H. reflexivity.
Qed.

Lemma ok_with_catch {A} (m : M A) h t : ok_with m t -> ok_with (catch_cpe m h) t.
Proof. intros Hm s. destruct (Hm s) as (a & s' & H & Ht). rewrite catch_cpe_unfold, H. eauto. Qed.




End AllSucceed.



(** On a host where docker is found and every command exits 0,
    [show_logs] succeeds after [journalctl] and then [systemctl status] of
    jupyterhub and traefik, both run in the container through bash. *)
Theorem show_logs_all_succeed n E s :
  (forall i, which_at E i "docker" = true) ->
  (forall i c, exists o, answer E i c = Exited 0 o) ->
  exists s', show_logs n E s = (Ok tt, s')
  /\ trace s' = trace s ++
       [["docker"; "exec"; "-t"; n; "/bin/bash"; "-c"; "journalctl --no-pager"];
        ["docker"; "exec"; "-t"; n; "/bin/bash"; "-c";
         "systemctl --no-pager status jupyterhub traefik"]].
Proof.
  intros Hw Hok. unfold show_logs, run_container_command.
  destruct (ok_with_bind E _ _ _ _
              (ok_with_run E Hw Hok ["exec"; "-t"; n; "/bin/bash"; "-c"; "journalctl --no-pager"])
              (fun _ => ok_with_run E Hw Hok ["exec"; "-t"; n; "/bin/bash"; "-c";
                                                "systemctl --no-pager status jupyterhub traefik"]) s)
    as ([] & s' & H & Ht). eauto.
Qed.

Lemma show_logs_all_succeed_witness :
  exists s', show_logs "c" (host_all 0) mk_state = (Ok tt, s')
  /\ trace s' = trace mk_state ++
       [["docker"; "exec"; "-t"; "c"; "/bin/bash"; "-c"; "journalctl --no-pager"];
        ["docker"; "exec"; "-t"; "c"; "/bin/bash"; "-c";
         "systemctl --no-pager status jupyterhub traefik"]].
Proof.
  apply show_logs_all_succeed.
  - intros i. reflexivity.
  - intros i c. exists "". reflexivity.
Defined.

Lemma container_runtime_none E s :
  which_at E (length (probes s)) "docker" = false ->
  which_at E (S (length (probes s))) "podman" = false ->
  container_runtime E s
  = (Err (RuntimeError "No container runtime found, tried: docker podman"),
     {| probes := probes s ++ ["docker"; "podman"]; trace := trace s; clock := clock s |}).
Proof.
  intros Hd Hp. unfold container_runtime, first_on_path, runtimes, bind, which, ret, raise.
  cbn. rewrite Hd. cbn [probes trace clock]. rewrite length_app, Nat.add_1_r. cbn.
  rewrite Hp. cbn. rewrite <- app_assoc. reflexivity.
Qed.

(** With neither docker nor podman on PATH, [run_test] stops at its very
    first step: the cleanup's [except CalledProcessError] does not catch
    the [RuntimeError], so nothing is issued and the error propagates. *)
Theorem run_test_no_runtime sp img tn bps tf uf ia E s :
  (forall i b, which_at E i b = false) ->
  run_test sp img tn bps tf uf ia E s
  = (Err (RuntimeError "No container runtime found, tried: docker podman"),
     {| probes := probes s ++ ["docker"; "podman"]; trace := trace s; clock := clock s |}).
Proof.
  intros Hw. unfold run_test, stop_container.
  rewrite bind_unfold, bind_unfold, catch_cpe_unfold, bind_unfold.
  unfold container_check_output. rewrite bind_unfold, container_runtime_none by apply Hw.
  reflexivity.
Qed.

Lemma run_test_no_runtime_witness :
  run_test "/repo" "img" "t" None ["a.py"] "" "" host_no_runtime mk_state
  = (Err (RuntimeError "No container runtime found, tried: docker podman"),
     {| probes := probes mk_state ++ ["docker"; "podman"]; trace := trace mk_state;
        clock := clock mk_state |}).
Proof. apply run_test_no_runtime. intros i b. reflexivity. Defined.
